(** * Transaction.js: the atomic multi-operation builder of node-zookeeper-client

    A shallow embedding of [src/Transaction.js] and the properties of its
    append methods ([create], [check], [setData], [remove]) and of [commit].

    JavaScript values are a data type; a method is a computation over a
    store of Transaction objects that either returns or throws, and in both
    cases hands back the store it left behind. Collaborators that live in
    other modules of the package ([Path], [ACL], [CreateMode], [jute],
    [Exception], [ConnectionManager]) are taken as a record of parameters. *)

From Stdlib Require Import ZArith Ascii String List Bool Lia.
From stdpp Require Import base option gmap.
Import ListNotations.

Local Open Scope Z_scope.
Local Open Scope string_scope.
Local Open Scope list_scope.

(** ** JavaScript values *)

Set Warnings "-register-all".

(** The numbers this file meets are only tested ([typeof], truthiness,
    [===]) and stored, never computed with. [Int z] is the double whose value
    is the integer [z] ([Int 0] is [+0]); the special values that the tests
    tell apart are kept. Finite non-integral doubles are left out: every test
    used here treats them like a non-zero integer. *)
Inductive number : Type :=
| Int (z : Z)
| NegZero
| NaN
| Infinity (negative : bool).

Inductive value : Type :=
| VUndefined
| VNull
| VBool (b : bool)
| VNumber (n : number)
| VString (s : string)
| VBuffer (bytes : list Byte.byte)
| VArray (elements : list value)
| VObject (properties : list (string * value))
| VFunction (name : string).

Module JS.

(** [typeof v] *)
Definition typeof (v : value) : string :=
  match v with
  | VUndefined => "undefined"
  | VNull => "object"
  | VBool _ => "boolean"
  | VNumber _ => "number"
  | VString _ => "string"
  | VBuffer _ | VArray _ | VObject _ => "object"
  | VFunction _ => "function"
  end.

(** [Array.isArray(v)] *)
Definition isArray (v : value) : bool :=
  match v with VArray _ => true | _ => false end.

(** [Buffer.isBuffer(v)] *)
Definition isBuffer (v : value) : bool :=
  match v with VBuffer _ => true | _ => false end.

(** ToBoolean: the test of [if (v)] and of [v || d]. *)
Definition truthy (v : value) : bool :=
  match v with
  | VUndefined | VNull => false
  | VBool b => b
  | VNumber (Int z) => negb (z =? 0)%Z
  | VNumber NegZero | VNumber NaN => false
  | VNumber (Infinity _) => true
  | VString s => negb (s =? "")%string
  | VBuffer _ | VArray _ | VObject _ | VFunction _ => true
  end.

(** [a || b] *)
Definition or (a b : value) : value := if truthy a then a else b.

(** [a === b] on two numbers: [NaN] equals nothing, the two zeros are
    equal. *)
Definition number_equals (a b : number) : bool :=
  match a, b with
  | Int x, Int y => (x =? y)%Z
  | Int x, NegZero | NegZero, Int x => (x =? 0)%Z
  | NegZero, NegZero => true
  | Infinity s, Infinity s' => Bool.eqb s s'
  | _, _ => false
  end.

(** [v === n] where [n] is a number: a value of another type is never
    strictly equal to a number. *)
Definition strict_equals_number (v : value) (n : number) : bool :=
  match v with
  | VNumber m => number_equals m n
  | _ => false
  end.

(** [v === null] and [v === undefined] *)
Definition is_null (v : value) : bool :=
  match v with VNull => true | _ => false end.
Definition is_undefined (v : value) : bool :=
  match v with VUndefined => true | _ => false end.

(** Own-property lookup in an object literal: the first binding of the
    key, [undefined] when there is none. *)
Fixpoint lookup_property (key : string) (properties : list (string * value)) : value :=
  match properties with
  | [] => VUndefined
  | (k, v) :: rest => if (k =? key)%string then v else lookup_property key rest
  end.

(** The value of [v.key], [None] where reading it throws ([v] is [null]
    or [undefined]). Of the built-in properties only [length] is
    modelled. *)
Definition property (v : value) (key : string) : option value :=
  match v with
  | VUndefined | VNull => None
  | VObject properties => Some (lookup_property key properties)
  | VArray elements =>
      Some (if (key =? "length")%string
            then VNumber (Int (Z.of_nat (length elements))) else VUndefined)
  | VBuffer bytes =>
      Some (if (key =? "length")%string
            then VNumber (Int (Z.of_nat (length bytes))) else VUndefined)
  | VString s =>
      Some (if (key =? "length")%string
            then VNumber (Int (Z.of_nat (String.length s))) else VUndefined)
  | VBool _ | VNumber _ | VFunction _ => Some VUndefined
  end.

End JS.

(** ** Errors, outcomes and the store *)

Inductive error : Type :=
| AssertionError (message : string)
| TypeError (message : string)
| OtherError (thrown : value).

Inductive outcome (A : Type) : Type :=
| Return (a : A)
| Throw (e : error).
Arguments Return {A} a.
Arguments Throw {A} e.

(** A Transaction object: [this.ops] and [this.connectionManager]. *)
Record Transaction : Type := mkTransaction {
  ops : list value;
  connectionManager : value
}.

(** The request built by [commit]: the header's [type] and the payload.
    [commit] gives the payload the array [this.ops] itself, not a copy of
    it, so the payload is named by the address of the Transaction that owns
    the array; what it holds is read from the heap ([payload_contents]). *)
Record Request : Type := mkRequest {
  header_type : number;
  payload : nat
}.

(** What the methods do to the outside: hand a request with its completion
    callback to a connection manager, call the commit callback. *)
Inductive event : Type :=
| Queued (manager : value) (request : Request) (callback : value)
| Called (callback : value) (arguments : list value).

Record world : Type := mkWorld {
  heap : gmap nat Transaction;
  events : list event
}.

(** A computation runs from a world to an outcome and the world it leaves;
    a throw does not undo what was done before it. *)
Definition M (A : Type) : Type := world -> outcome A * world.

Definition ret {A} (a : A) : M A := fun w => (Return a, w).

Definition throw {A} (e : error) : M A := fun w => (Throw e, w).

Definition bind {A B} (m : M A) (k : A -> M B) : M B :=
  fun w =>
    match m w with
    | (Return a, w') => k a w'
    | (Throw e, w') => (Throw e, w')
    end.

Declare Scope js_scope.
Delimit Scope js_scope with js.
Notation "x <- m ;; k" := (bind m (fun x => k))
  (at level 100, m at next level, right associativity) : js_scope.
Notation "m ;; k" := (bind m (fun _ => k))
  (at level 100, right associativity) : js_scope.
Local Open Scope js_scope.

(** [assert(condition, message)] *)
Definition assert (condition : bool) (message : string) : M unit :=
  if condition then ret tt else throw (AssertionError message).

(** [v.key]: a [TypeError] on [null] and [undefined]. *)
Definition get (v : value) (key : string) : M value :=
  match JS.property v key with
  | Some x => ret x
  | None => throw (TypeError ("Cannot read property " ++ key))
  end.

(** [this.ops.push(op)] *)
Definition push_op (this : nat) (op : value) : M unit :=
  fun w =>
    match heap w !! this with
    | Some t =>
        (Return tt,
         mkWorld (<[this := mkTransaction (ops t ++ [op]) (connectionManager t)]> (heap w))
                 (events w))
    | None => (Throw (TypeError "Cannot read property ops"), w)
    end.

(** Reading [this.ops] and [this.connectionManager]. *)
Definition read_this (this : nat) : M Transaction :=
  fun w =>
    match heap w !! this with
    | Some t => (Return t, w)
    | None => (Throw (TypeError "Cannot read property of undefined"), w)
    end.

(** The operation list a request carries, in a given world. *)
Definition payload_contents (w : world) (request : Request) : option (list value) :=
  ops <$> heap w !! payload request.

Definition emit (e : event) : M unit :=
  fun w => (Return tt, mkWorld (heap w) (events w ++ [e])).

(** ** The collaborators *)

(** What [Transaction.js] imports. [Path_validate] gives the error it
    throws, [None] when the path is accepted; [Exception_create] is the
    error-kind factory, a lookup from a code to an error value;
    [instanceof_ConnectionManager] is the test
    [v instanceof ConnectionManager]. *)
Record Externals : Type := mkExternals {
  Path_validate : value -> option error;
  ACL_OPEN_ACL_UNSAFE : list value;
  CreateMode_PERSISTENT : value;
  OP_CODES_CREATE : number;
  OP_CODES_DELETE : number;
  OP_CODES_SET_DATA : number;
  OP_CODES_CHECK : number;
  OP_CODES_MULTI : number;
  OP_CODES_ERROR : number;
  Exception_OK : number;
  Exception_create : value -> value;
  instanceof_ConnectionManager : value -> bool
}.

(** ** The methods of Transaction *)

Section Methods.

Variable E : Externals.

(** [Path.validate(path)] *)
Definition validate (path : value) : M unit :=
  match Path_validate E path with
  | Some e => throw e
  | None => ret tt
  end.

(** The constructor, called with or without [new]: both ways end in one
    fresh object. An object whose construction throws is never reachable
    and is not allocated. *)
Definition new_Transaction (manager : value) : M nat :=
  assert (instanceof_ConnectionManager E manager)
         "connectionManager must be an instance of ConnectionManager." ;;
  fun w =>
    let this := fresh (dom (heap w)) in
    (Return this, mkWorld (<[this := mkTransaction [] manager]> (heap w)) (events w)).

(** The body of the [forEach] in [create]: one optional argument updates
    the three variables [(data, acls, mode)]. *)
Definition classify (vars : value * value * value) (arg : value)
  : value * value * value :=
  let '(data, acls, mode) := vars in
  if JS.isArray arg then (data, arg, mode)
  else if (JS.typeof arg =? "number")%string then (data, acls, arg)
  else if JS.isBuffer arg then (arg, acls, mode)
  else (data, acls, mode).

Definition create_op (path data : value) (acls : list value) (mode : value) : value :=
  VObject [("type", VNumber (OP_CODES_CREATE E)); ("path", path); ("data", data);
           ("acls", VArray acls); ("mode", mode)].

Definition create (this : nat) (path data acls mode : value) : M nat :=
  let optionalArgs := [data; acls; mode] in
  validate path ;;
  let '(data, acls, mode) :=
    fold_left classify optionalArgs (VUndefined, VUndefined, VUndefined) in
  let acls := match acls with VArray l => l | _ => ACL_OPEN_ACL_UNSAFE E end in
  let mode := if (JS.typeof mode =? "number")%string then mode
              else CreateMode_PERSISTENT E in
  assert (JS.is_null data || JS.is_undefined data || JS.isBuffer data)
         "data must be a valid buffer, null or undefined." ;;
  assert (0 <? Z.of_nat (length acls))%Z "acls must be a non-empty array." ;;
  push_op this (create_op path data acls mode) ;;
  ret this.

Definition check_op (path version : value) : value :=
  VObject [("type", VNumber (OP_CODES_CHECK E)); ("path", path); ("version", version)].

Definition check (this : nat) (path version : value) : M nat :=
  let version := JS.or version (VNumber (Int (-1))) in
  validate path ;;
  assert (JS.typeof version =? "number")%string "version must be a number." ;;
  push_op this (check_op path version) ;;
  ret this.

Definition setData_op (path data version : value) : value :=
  VObject [("type", VNumber (OP_CODES_SET_DATA E)); ("path", path); ("data", data);
           ("version", version)].

Definition setData (this : nat) (path data version : value) : M nat :=
  let version := JS.or version (VNumber (Int (-1))) in
  validate path ;;
  assert (JS.is_null data || JS.is_undefined data || JS.isBuffer data)
         "data must be a valid buffer, null or undefined." ;;
  assert (JS.typeof version =? "number")%string "version must be a number." ;;
  push_op this (setData_op path data version) ;;
  ret this.

Definition remove_op (path version : value) : value :=
  VObject [("type", VNumber (OP_CODES_DELETE E)); ("path", path); ("version", version)].

Definition remove (this : nat) (path version : value) : M nat :=
  let version := JS.or version (VNumber (Int (-1))) in
  validate path ;;
  assert (JS.typeof version =? "number")%string "version must be a number." ;;
  push_op this (remove_op path version) ;;
  ret this.

(** Reading [response.payload.results]. A response, when the dispatcher
    passes one, carries a result array; [None] is [undefined], of which no
    property can be read. *)
Definition response_results (response : option (list value)) : M (list value) :=
  match response with
  | Some results => ret results
  | None => throw (TypeError "Cannot read property payload")
  end.

(** The [for] loop of the completion callback: [error] is the variable it
    may overwrite before it breaks. *)
Fixpoint scan (results : list value) (error : value) : M value :=
  match results with
  | [] => ret error
  | result :: rest =>
      type <- get result "type" ;;
      if JS.strict_equals_number type (OP_CODES_ERROR E) then
        err <- get result "err" ;;
        if negb (JS.strict_equals_number err (Exception_OK E)) then
          err <- get result "err" ;;
          ret (Exception_create E err)
        else scan rest error
      else scan rest error
  end.

(** The arrow function that [commit] hands to [queue]. *)
Definition commit_completion (callback : value) (error : value)
           (response : option (list value)) : M unit :=
  if JS.truthy error then
    emit (Called callback [error])
  else
    results <- response_results response ;;
    error <- scan results error ;;
    emit (Called callback [error; VArray results]).

Definition commit (this : nat) (callback : value) : M unit :=
  assert (JS.typeof callback =? "function")%string "callback must be a function" ;;
  t <- read_this this ;;
  let request := mkRequest (OP_CODES_MULTI E) this in
  emit (Queued (connectionManager t) request callback).

End Methods.

Arguments create_op E path data acls mode /.
Arguments check_op E path version /.
Arguments setData_op E path data version /.
Arguments remove_op E path version /.

(** ** The claims' vocabulary *)

(** [null] and [undefined], the two values without properties. *)
Definition nullish (v : value) : bool :=
  match v with VUndefined | VNull => true | _ => false end.

Section Reading.

Variable E : Externals.

(** A result entry whose kind is the error op-code and whose code is not
    the OK sentinel. *)
Definition signals_failure (result : value) : bool :=
  match JS.property result "type", JS.property result "err" with
  | Some kind, Some code =>
      JS.strict_equals_number kind (OP_CODES_ERROR E)
      && negb (JS.strict_equals_number code (Exception_OK E))
  | _, _ => false
  end.

(** The code a result entry carries. *)
Definition code_of (result : value) : value :=
  match JS.property result "err" with
  | Some code => code
  | None => VUndefined
  end.

(** The error the scan leaves in its variable: made from the code of the
    first failing entry, the incoming one when no entry fails. *)
Definition scanned_error (results : list value) (error : value) : value :=
  match List.find signals_failure results with
  | Some result => Exception_create E (code_of result)
  | None => error
  end.

(** Is [v] a number? The test [typeof v === 'number']. *)
Definition is_number (v : value) : bool := (JS.typeof v =? "number")%string.

(** Of the arguments that have a given shape, the one supplied last. *)
Definition last_of (shape : value -> bool) (args : list value) : option value :=
  List.find shape (rev args).

(** The fields a call of [create] resolves its optional arguments to: each
    argument goes by its shape, the last of a shape wins, and a shape that
    no argument has gets its default. *)
Definition resolved_data (args : list value) : value :=
  match last_of JS.isBuffer args with
  | Some data => data
  | None => VUndefined
  end.

Definition resolved_acls (args : list value) : list value :=
  match last_of JS.isArray args with
  | Some (VArray acls) => acls
  | _ => ACL_OPEN_ACL_UNSAFE E
  end.

Definition resolved_mode (args : list value) : value :=
  match last_of is_number args with
  | Some mode => mode
  | None => CreateMode_PERSISTENT E
  end.

(** The version a call of [check], [setData] or [remove] works with. *)
Definition resolved_version (version : value) : value :=
  JS.or version (VNumber (Int (-1))).

(** One call of an append method, with its arguments; an argument left out
    is [VUndefined]. *)
Inductive append_call : Type :=
| Create (path data acls mode : value)
| Check (path version : value)
| SetData (path data version : value)
| Remove (path version : value).

Definition call (this : nat) (c : append_call) : M nat :=
  match c with
  | Create path data acls mode => create E this path data acls mode
  | Check path version => check E this path version
  | SetData path data version => setData E this path data version
  | Remove path version => remove E this path version
  end.

(** The operation a call appends when it goes through. *)
Definition appended_op (c : append_call) : value :=
  match c with
  | Create path data acls mode =>
      let args := [data; acls; mode] in
      create_op E path (resolved_data args) (resolved_acls args) (resolved_mode args)
  | Check path version => check_op E path (resolved_version version)
  | SetData path data version => setData_op E path data (resolved_version version)
  | Remove path version => remove_op E path (resolved_version version)
  end.

(** The test both data assertions make. *)
Definition absent_or_buffer (data : value) : bool :=
  JS.is_null data || JS.is_undefined data || JS.isBuffer data.

Definition path_rejection (path : value) (otherwise : option error) : option error :=
  match Path_validate E path with
  | Some e => Some e
  | None => otherwise
  end.

(** The error a call is turned down with, [None] when it passes every
    check. *)
Definition rejection (c : append_call) : option error :=
  match c with
  | Create path data acls mode =>
      path_rejection path
        (if (0 <? Z.of_nat (length (resolved_acls [data; acls; mode])))%Z then None
         else Some (AssertionError "acls must be a non-empty array."))
  | Check path version | Remove path version =>
      path_rejection path
        (if is_number (resolved_version version) then None
         else Some (AssertionError "version must be a number."))
  | SetData path data version =>
      path_rejection path
        (if absent_or_buffer data
         then if is_number (resolved_version version) then None
              else Some (AssertionError "version must be a number.")
         else Some (AssertionError "data must be a valid buffer, null or undefined."))
  end.

(** The world after [this.ops.push(op)] on a Transaction [t] at [this]. *)
Definition pushed (w : world) (this : nat) (t : Transaction) (op : value) : world :=
  mkWorld (<[this := mkTransaction (ops t ++ [op]) (connectionManager t)]> (heap w))
          (events w).

(** A fluent chain [t.c1(...).c2(...)...]: each call is made on what the
    call before it returned. *)
Fixpoint chain (this : nat) (calls : list append_call) : M nat :=
  match calls with
  | [] => ret this
  | c :: rest => next <- call this c ;; chain next rest
  end.

(** What a call does: it is turned down with its [rejection] and the world
    as it was, or it pushes its operation and returns [this]. *)
Definition call_result (this : nat) (c : append_call) (w : world)
  : outcome nat * world :=
  match rejection c with
  | Some e => (Throw e, w)
  | None => (push_op this (appended_op c) ;; ret this) w
  end.

End Reading.

(** ** A concrete setting to run the methods in *)

Module Sample.

(** Modelled from the spec: the Path Validator is another module of the
    package. The spec has it reject what is not a string, the empty string
    and a path that does not start with the root delimiter; the rest of its
    grammar is its own. *)
Definition validate_path (path : value) : option error :=
  match path with
  | VString (String "/"%char _) => None
  | VString (String _ _) =>
      Some (AssertionError "Node path must start with / character.")
  | _ => Some (AssertionError "Node path must be a non-empty string.")
  end.

(** The one entry of [ACL.OPEN_ACL_UNSAFE]: all permissions for anyone. *)
Definition world_anyone : value :=
  VObject [("permission", VNumber (Int 31));
           ("id", VObject [("scheme", VString "world"); ("id", VString "anyone")])].

(** The error-kind factory, as an object that carries the code. *)
Definition exception (code : value) : value :=
  VObject [("name", VString "Exception"); ("code", code)].

Definition manager : value := VObject [("name", VString "ConnectionManager")].

Definition is_manager (v : value) : bool :=
  match v with
  | VObject (("name", VString "ConnectionManager") :: _) => true
  | _ => false
  end.

(** The op-codes and error codes of the ZooKeeper protocol. *)
Definition zk : Externals :=
  {| Path_validate := validate_path;
     ACL_OPEN_ACL_UNSAFE := [world_anyone];
     CreateMode_PERSISTENT := VNumber (Int 0);
     OP_CODES_CREATE := Int 1;
     OP_CODES_DELETE := Int 2;
     OP_CODES_SET_DATA := Int 5;
     OP_CODES_CHECK := Int 13;
     OP_CODES_MULTI := Int 14;
     OP_CODES_ERROR := Int (-1);
     Exception_OK := Int 0;
     Exception_create := exception;
     instanceof_ConnectionManager := is_manager |}.

(** A store with one empty Transaction at address 0. *)
Definition fresh_world : world :=
  mkWorld {[ 0%nat := mkTransaction [] manager ]} [].

Definition buf (s : string) : value := VBuffer (list_byte_of_string s).

Definition callback : value := VFunction "done".

(** Result records as the dispatcher decodes them. *)
Definition created (path : string) : value :=
  VObject [("type", VNumber (Int 1)); ("path", VString path)].

Definition checked : value := VObject [("type", VNumber (Int 13))].

Definition failed (code : Z) : value :=
  VObject [("type", VNumber (Int (-1))); ("err", VNumber (Int code))].

Definition transport_error : value :=
  VObject [("name", VString "Error"); ("message", VString "connection lost")].

(** A store with two Transactions: one check appended at address 0, none at
    address 1. *)
Definition two_world : world :=
  mkWorld {[ 0%nat := mkTransaction
                        [VObject [("type", VNumber (Int 13)); ("path", VString "/a");
                                  ("version", VNumber (Int 2))]]
                        manager;
             1%nat := mkTransaction [] manager ]} [].

End Sample.

(** ** Vocabulary for the properties beyond the claims *)

Section Usage.

Variable E : Externals.

(** The shapes the [forEach] of [create] has a branch for. *)
Definition classifiable (arg : value) : bool :=
  JS.isArray arg || is_number arg || JS.isBuffer arg.

(** An optional argument as [create] sees it: one of no shape might as well
    have been left out. *)
Definition as_seen (arg : value) : value :=
  if classifiable arg then arg else VUndefined.

(** No two of the arguments have the shape. *)
Definition at_most_one (shape : value -> bool) (args : list value) : Prop :=
  (length (List.filter shape args) <= 1)%nat.

(** The path a call is made with. *)
Definition path_of (c : append_call) : value :=
  match c with
  | Create path _ _ _ | Check path _ | SetData path _ _ | Remove path _ => path
  end.

(** An operation as the four methods let it into [this.ops]: its path was
    accepted, and its other fields passed the method's assertions. *)
Inductive validated : value -> Prop :=
| validated_create path data acls mode :
    Path_validate E path = None ->
    acls <> [] ->
    data = VUndefined \/ JS.isBuffer data = true ->
    is_number mode = true \/ mode = CreateMode_PERSISTENT E ->
    validated (create_op E path data acls mode)
| validated_check path version :
    Path_validate E path = None ->
    is_number version = true ->
    validated (check_op E path version)
| validated_setData path data version :
    Path_validate E path = None ->
    absent_or_buffer data = true ->
    is_number version = true ->
    validated (setData_op E path data version)
| validated_remove path version :
    Path_validate E path = None ->
    is_number version = true ->
    validated (remove_op E path version).

(** A whole use of the class: [new Transaction(manager)], a fluent chain of
    appends on it, then [commit(callback)]. The Transaction is returned. *)
Definition build_and_commit (manager : value) (calls : list append_call)
           (callback : value) : M nat :=
  this <- new_Transaction E manager ;;
  last <- chain E this calls ;;
  commit E last callback ;;
  ret last.

(** Everything that can be done with the class, and what the dispatcher
    does to it: construct, append to a Transaction, commit one, and run a
    completion callback on a reply. *)
Inductive api_call : Type :=
| New (manager : value)
| Append (this : nat) (c : append_call)
| Commit (this : nat) (callback : value)
| Complete (callback error : value) (response : option (list value)).

(** The world one call leaves, whether it returns or throws. *)
Definition api_step (a : api_call) (w : world) : world :=
  match a with
  | New manager => snd (new_Transaction E manager w)
  | Append this c => snd (call E this c w)
  | Commit this callback => snd (commit E this callback w)
  | Complete callback error response =>
      snd (commit_completion E callback error response w)
  end.

Definition api_run (calls : list api_call) (w : world) : world :=
  fold_left (fun w a => api_step a w) calls w.

(** Every operation of every Transaction has been validated. *)
Definition all_validated (w : world) : Prop :=
  forall this t, heap w !! this = Some t -> Forall validated (ops t).

End Usage.

(** No Transaction yet, nothing done. *)
Definition empty_world : world := mkWorld ∅ [].

(** [t'] is [t] with operations added at the end, if any. *)
Definition extends (t t' : Transaction) : Prop :=
  connectionManager t' = connectionManager t
  /\ exists more, ops t' = ops t ++ more.

(** ** Running computations *)

Lemma bind_Return {A B} (m : M A) (k : A -> M B) w a w' :
  m w = (Return a, w') -> bind m k w = k a w'.
Proof. unfold bind. intros ->. reflexivity. Qed.

Lemma bind_Throw {A B} (m : M A) (k : A -> M B) w e w' :
  m w = (Throw e, w') -> bind m k w = (Throw e, w').
Proof. unfold bind. intros ->. reflexivity. Qed.

Lemma get_present v key x w :
  JS.property v key = Some x -> get v key w = (Return x, w).
Proof. unfold get. intros ->. reflexivity. Qed.

Lemma property_present v key :
  nullish v = false -> exists x, JS.property v key = Some x.
Proof. destruct v; simpl; intros H; try discriminate; eauto. Qed.

(** Every object is truthy, an Error among them. *)
Lemma truthy_object properties : JS.truthy (VObject properties) = true.
Proof. reflexivity. Qed.

(** ** The completion callback of commit *)

Lemma scan_step_failure E result rest error w :
  nullish result = false ->
  signals_failure E result = true ->
  scan E (result :: rest) error w
  = (Return (Exception_create E (code_of result)), w).
Proof.
  intros Hp Hf.
  destruct (property_present result "type" Hp) as [kind Hk].
  destruct (property_present result "err" Hp) as [code Hc].
  unfold signals_failure, code_of in *. rewrite Hk, Hc in *.
  apply andb_prop in Hf as [H1 H2].
  simpl. rewrite (bind_Return _ _ _ _ _ (get_present _ _ _ w Hk)), H1.
  rewrite (bind_Return _ _ _ _ _ (get_present _ _ _ w Hc)), H2.
  rewrite (bind_Return _ _ _ _ _ (get_present _ _ _ w Hc)). reflexivity.
Qed.

Lemma scan_step_success E result rest error w :
  nullish result = false ->
  signals_failure E result = false ->
  scan E (result :: rest) error w = scan E rest error w.
Proof.
  intros Hp Hf.
  destruct (property_present result "type" Hp) as [kind Hk].
  destruct (property_present result "err" Hp) as [code Hc].
  unfold signals_failure in Hf. rewrite Hk, Hc in Hf.
  simpl. rewrite (bind_Return _ _ _ _ _ (get_present _ _ _ w Hk)).
  destruct (JS.strict_equals_number kind (OP_CODES_ERROR E)); [|reflexivity].
  rewrite (bind_Return _ _ _ _ _ (get_present _ _ _ w Hc)).
  simpl in Hf. rewrite Hf. reflexivity.
Qed.

(** The loop returns, leaves the world alone, and stops at the first failing
    entry. *)
Lemma scan_scanned E results error w :
  Forall (fun r => nullish r = false) results ->
  scan E results error w = (Return (scanned_error E results error), w).
Proof.
  unfold scanned_error.
  induction 1 as [|result rest Hp _ IH]; [reflexivity|].
  cbn [List.find]. destruct (signals_failure E result) eqn:Hf.
  - apply scan_step_failure; assumption.
  - rewrite scan_step_success by assumption. exact IH.
Qed.

(** On a reply without dispatch error the callback is called once, with the
    scanned error and the result array. *)
Lemma commit_completion_reply E callback error results w :
  JS.truthy error = false ->
  Forall (fun r => nullish r = false) results ->
  commit_completion E callback error (Some results) w
  = (Return tt,
     mkWorld (heap w)
       (events w ++ [Called callback [scanned_error E results error; VArray results]])).
Proof.
  intros Hfalsy Hpresent. unfold commit_completion. rewrite Hfalsy.
  unfold response_results.
  rewrite (bind_Return _ _ w results w) by reflexivity.
  rewrite (bind_Return _ _ _ _ _ (scan_scanned E results error w Hpresent)).
  reflexivity.
Qed.

Lemma signals_failure_present E result :
  signals_failure E result = true -> nullish result = false.
Proof. destruct result; cbn; congruence. Qed.

(** The loop breaks at the first failing entry and never looks at the
    entries behind it. *)
Lemma scan_stops_at_first_failure E before failing after error w :
  Forall (fun r => nullish r = false) before ->
  Forall (fun r => signals_failure E r = false) before ->
  signals_failure E failing = true ->
  scan E (before ++ failing :: after) error w
  = (Return (Exception_create E (code_of failing)), w).
Proof.
  intros Hpresent Hnone Hfails. induction Hpresent as [|r before Hr _ IH].
  - apply scan_step_failure; [apply (signals_failure_present E)|]; assumption.
  - rewrite <- app_comm_cons. inversion Hnone; subst.
    rewrite scan_step_success by assumption. apply IH. assumption.
Qed.

(** C1. When the dispatch succeeds (the dispatcher passes no error) and the
    result array holds an entry whose kind is the error op-code and whose
    code is not OK, the commit callback is called, once, with the error that
    [Exception.create] makes from the code of the first such entry in array
    order, and with the whole result array as its second argument. The
    entries before that one are result records: none is [null] or
    [undefined]. *)
Theorem commit_reports_first_failure E callback error before failing after w :
  JS.truthy error = false ->
  Forall (fun r => nullish r = false) before ->
  Forall (fun r => signals_failure E r = false) before ->
  signals_failure E failing = true ->
  let results := before ++ failing :: after in
  commit_completion E callback error (Some results) w
  = (Return tt,
     mkWorld (heap w)
       (events w
        ++ [Called callback [Exception_create E (code_of failing); VArray results]])).
Proof.
  intros Hfalsy Hpresent Hnone Hfails results.
  unfold commit_completion. rewrite Hfalsy. unfold response_results.
  rewrite (bind_Return _ _ w results w) by reflexivity.
  rewrite (bind_Return _ _ _ _ _
             (scan_stops_at_first_failure E before failing after error w
                Hpresent Hnone Hfails)).
  reflexivity.
Qed.

(** C2. When the dispatch succeeds and no entry of the result array has the
    error kind with a code other than OK, the commit callback is called
    exactly once, with the (falsy) error value the dispatcher passed and
    with the result array as the dispatcher delivered it: the same entries
    in the same order, hence one per submitted operation whenever the
    dispatcher's array has one per submitted operation. *)
Theorem commit_reports_success E callback error results w :
  JS.truthy error = false ->
  Forall (fun r => nullish r = false) results ->
  Forall (fun r => signals_failure E r = false) results ->
  commit_completion E callback error (Some results) w
  = (Return tt,
     mkWorld (heap w) (events w ++ [Called callback [error; VArray results]])).
Proof.
  intros Hfalsy Hpresent Hnone.
  rewrite commit_completion_reply by assumption.
  unfold scanned_error.
  destruct (List.find (signals_failure E) results) as [r|] eqn:Hfind; [|reflexivity].
  apply List.find_some in Hfind as [Hin Hr].
  rewrite List.Forall_forall in Hnone. rewrite (Hnone r Hin) in Hr. discriminate.
Qed.

(** C6. When the dispatcher calls back with an error, the commit callback
    is called once with that very value as its only argument; the response
    is not read, so the outcome is the same whatever the response is, and
    there is no [TypeError] when it is [undefined]. *)
Theorem commit_propagates_dispatch_error E callback error response w :
  JS.truthy error = true ->
  commit_completion E callback error response w
  = (Return tt, mkWorld (heap w) (events w ++ [Called callback [error]])).
Proof.
  intros Htruthy. unfold commit_completion. rewrite Htruthy. reflexivity.
Qed.

Lemma commit_reports_first_failure_witness :
  let results :=
    [Sample.created "/a"] ++ Sample.failed (-101) :: [Sample.failed (-103)] in
  commit_completion Sample.zk Sample.callback VNull (Some results) Sample.fresh_world
  = (Return tt,
     mkWorld (heap Sample.fresh_world)
       ([] ++ [Called Sample.callback
                 [Sample.exception (code_of (Sample.failed (-101))); VArray results]])).
Proof.
  apply (commit_reports_first_failure Sample.zk Sample.callback VNull
           [Sample.created "/a"] (Sample.failed (-101)) [Sample.failed (-103)]
           Sample.fresh_world).
  - reflexivity.
  - repeat constructor.
  - repeat constructor.
  - reflexivity.
Defined.

Lemma commit_reports_success_witness :
  let results := [Sample.created "/a"; Sample.failed 0; Sample.checked] in
  commit_completion Sample.zk Sample.callback VNull (Some results) Sample.fresh_world
  = (Return tt,
     mkWorld (heap Sample.fresh_world)
       [Called Sample.callback [VNull; VArray results]]).
Proof.
  apply (commit_reports_success Sample.zk Sample.callback VNull
           [Sample.created "/a"; Sample.failed 0; Sample.checked]
           Sample.fresh_world).
  - reflexivity.
  - repeat constructor.
  - repeat constructor.
Defined.

Lemma commit_propagates_dispatch_error_witness :
  commit_completion Sample.zk Sample.callback Sample.transport_error None
    Sample.fresh_world
  = (Return tt,
     mkWorld (heap Sample.fresh_world)
       [Called Sample.callback [Sample.transport_error]]).
Proof.
  exact (commit_propagates_dispatch_error Sample.zk Sample.callback
           Sample.transport_error None Sample.fresh_world eq_refl).
Defined.

(** ** The append methods *)

Lemma find_snoc {A} (f : A -> bool) l x :
  List.find f (l ++ [x])
  = match List.find f l with
    | Some y => Some y
    | None => if f x then Some x else None
    end.
Proof.
  induction l as [|y l IH]; simpl; [reflexivity|].
  destruct (f y); [reflexivity | exact IH].
Qed.

Lemma last_of_cons shape x args :
  last_of shape (x :: args)
  = match last_of shape args with
    | Some y => Some y
    | None => if shape x then Some x else None
    end.
Proof. unfold last_of. simpl rev. apply find_snoc. Qed.

Lemma last_of_shape shape args v : last_of shape args = Some v -> shape v = true.
Proof. unfold last_of. intros H. apply List.find_some in H. tauto. Qed.

(** The [forEach] of [create] leaves in each variable the last argument of
    its shape, and what the variable held when there is none. *)
Lemma classify_fold args : forall data acls mode,
  fold_left classify args (data, acls, mode)
  = (default data (last_of JS.isBuffer args),
     default acls (last_of JS.isArray args),
     default mode (last_of is_number args)).
Proof.
  induction args as [|x args IH]; intros data acls mode; [reflexivity|].
  cbn [fold_left]. rewrite !last_of_cons.
  destruct x; simpl; rewrite IH;
    destruct (last_of JS.isBuffer args), (last_of JS.isArray args),
             (last_of is_number args); reflexivity.
Qed.

Lemma push_op_then_return this op w :
  (push_op this op ;; ret this) w
  = match heap w !! this with
    | Some t => (Return this, pushed w this t op)
    | None => (Throw (TypeError "Cannot read property ops"), w)
    end.
Proof. unfold bind, push_op, pushed. destruct (heap w !! this); reflexivity. Qed.

Lemma create_runs E this path data acls mode w :
  create E this path data acls mode w
  = call_result E this (Create path data acls mode) w.
Proof.
  unfold create, call_result. rewrite classify_fold.
  unfold rejection, path_rejection, appended_op, validate,
    resolved_data, resolved_acls, resolved_mode.
  destruct (Path_validate E path); [reflexivity|].
  destruct (last_of JS.isBuffer [data; acls; mode]) as [d|] eqn:Hd;
    [apply last_of_shape in Hd; destruct d; try discriminate Hd|];
    (destruct (last_of JS.isArray [data; acls; mode]) as [a|] eqn:Ha;
     [apply last_of_shape in Ha; destruct a; try discriminate Ha|]);
    (destruct (last_of is_number [data; acls; mode]) as [m|] eqn:Hm;
     [apply last_of_shape in Hm; destruct m; try discriminate Hm|]);
    unfold bind, assert, ret, throw; simpl;
    match goal with
    | |- context [(0 <? ?n)%Z] => destruct (0 <? n)%Z
    end; reflexivity.
Qed.

Lemma check_runs E this path version w :
  check E this path version w = call_result E this (Check path version) w.
Proof.
  unfold check, call_result, rejection, path_rejection, appended_op, validate,
    resolved_version, is_number.
  destruct (Path_validate E path); [reflexivity|].
  unfold bind at 1; cbn [ret]. unfold bind at 1.
  destruct (JS.typeof _ =? "number")%string; reflexivity.
Qed.

Lemma remove_runs E this path version w :
  remove E this path version w = call_result E this (Remove path version) w.
Proof.
  unfold remove, call_result, rejection, path_rejection, appended_op, validate,
    resolved_version, is_number.
  destruct (Path_validate E path); [reflexivity|].
  unfold bind at 1; cbn [ret]. unfold bind at 1.
  destruct (JS.typeof _ =? "number")%string; reflexivity.
Qed.

Lemma setData_runs E this path data version w :
  setData E this path data version w
  = call_result E this (SetData path data version) w.
Proof.
  unfold setData, call_result, rejection, path_rejection, appended_op, validate,
    resolved_version, is_number, absent_or_buffer.
  destruct (Path_validate E path); [reflexivity|].
  unfold bind at 1; cbn [ret]. unfold bind at 1.
  destruct (JS.is_null data || JS.is_undefined data || JS.isBuffer data);
    [|reflexivity].
  cbn [assert ret]. unfold bind at 1.
  destruct (JS.typeof _ =? "number")%string; reflexivity.
Qed.

Lemma call_runs E this c w : call E this c w = call_result E this c w.
Proof.
  destruct c; cbn [call];
    auto using create_runs, check_runs, setData_runs, remove_runs.
Qed.

(** A call that goes through returns [this] and has pushed its operation;
    one that is turned down has changed nothing. *)
Lemma call_cases E this c w :
  (exists t, heap w !! this = Some t /\ rejection E c = None
             /\ call E this c w = (Return this, pushed w this t (appended_op E c)))
  \/ (exists e, call E this c w = (Throw e, w)).
Proof.
  rewrite call_runs. unfold call_result.
  destruct (rejection E c) as [e|]; [right; eauto|].
  rewrite push_op_then_return.
  destruct (heap w !! this) as [t|]; [left | right]; eauto.
Qed.

(** A new Transaction is a fresh object with no operation. *)
Lemma new_Transaction_runs E manager w :
  instanceof_ConnectionManager E manager = true ->
  exists this,
    heap w !! this = None
    /\ new_Transaction E manager w
       = (Return this,
          mkWorld (<[this := mkTransaction [] manager]> (heap w)) (events w)).
Proof.
  intros Hmanager. exists (fresh (dom (heap w))). split.
  - apply not_elem_of_dom. apply is_fresh.
  - unfold new_Transaction. rewrite Hmanager. reflexivity.
Qed.

(** The resolution of [create] on the shapes of its arguments. *)
Lemma resolved_defaults E :
  let none := [VUndefined; VUndefined; VUndefined] in
  resolved_data none = VUndefined
  /\ resolved_acls E none = ACL_OPEN_ACL_UNSAFE E
  /\ resolved_mode E none = CreateMode_PERSISTENT E.
Proof. repeat split. Qed.

Lemma resolved_any_order E bytes acls n :
  let data := VBuffer bytes in
  let mode := VNumber n in
  Forall (fun args =>
            resolved_data args = data
            /\ resolved_acls E args = acls
            /\ resolved_mode E args = mode)
    [[data; VArray acls; mode]; [data; mode; VArray acls];
     [VArray acls; data; mode]; [VArray acls; mode; data];
     [mode; data; VArray acls]; [mode; VArray acls; data]].
Proof. repeat constructor. Qed.

Lemma resolved_last_wins E first second other :
  resolved_acls E [VArray first; VArray second; other]
  = match other with VArray third => third | _ => second end.
Proof. destruct other; reflexivity. Qed.

(** C8. An append call that throws, whatever the error (the validator's,
    the data, ACL or version assertion), leaves the world it was made in:
    the operation sequence of the Transaction, and everything else, is as
    before the call. *)
Theorem rejected_append_changes_nothing E this c w e w' :
  call E this c w = (Throw e, w') -> w' = w.
Proof.
  intros Hthrow.
  destruct (call_cases E this c w) as [(t & _ & _ & Hrun) | (e' & Hrun)];
    rewrite Hrun in Hthrow; [discriminate | congruence].
Qed.

Lemma rejected_append_changes_nothing_witness :
  snd (create Sample.zk 0 (VString "") (Sample.buf "x") VUndefined VUndefined
         Sample.fresh_world)
  = Sample.fresh_world.
Proof.
  apply (rejected_append_changes_nothing Sample.zk 0%nat
           (Create (VString "") (Sample.buf "x") VUndefined VUndefined)
           Sample.fresh_world
           (AssertionError "Node path must be a non-empty string.")).
  reflexivity.
Defined.

(** C4. A call of [create] with a path the validator accepts resolves its
    three optional arguments by shape, wherever they stand: the last array
    is the ACL list, the last number the mode, the last buffer the data; a
    shape no argument has gets [ACL.OPEN_ACL_UNSAFE], [CreateMode.PERSISTENT]
    and [undefined]. With a resolved ACL list that is not empty the call
    returns [this] and has appended the Create operation with exactly these
    fields. *)
Theorem create_resolves_optional_arguments E this path a1 a2 a3 w t :
  Path_validate E path = None ->
  heap w !! this = Some t ->
  resolved_acls E [a1; a2; a3] <> [] ->
  create E this path a1 a2 a3 w
  = (Return this,
     pushed w this t
       (VObject [("type", VNumber (OP_CODES_CREATE E));
                 ("path", path);
                 ("data", resolved_data [a1; a2; a3]);
                 ("acls", VArray (resolved_acls E [a1; a2; a3]));
                 ("mode", resolved_mode E [a1; a2; a3])])).
Proof.
  intros Hpath Hthis Hacls.
  rewrite create_runs. unfold call_result, rejection, path_rejection.
  rewrite Hpath.
  destruct (resolved_acls E [a1; a2; a3]) as [|acl acls] eqn:Hresolved;
    [congruence|].
  cbn [length Z.of_nat Z.ltb Z.compare].
  rewrite push_op_then_return, Hthis.
  cbn [appended_op create_op]. rewrite Hresolved. reflexivity.
Qed.

Lemma create_resolves_optional_arguments_witness :
  create Sample.zk 0 (VString "/a")
    (VNumber (Int 1)) (VArray [Sample.world_anyone; Sample.world_anyone]) (Sample.buf "x")
    Sample.fresh_world
  = (Return 0%nat,
     pushed Sample.fresh_world 0 (mkTransaction [] Sample.manager)
       (VObject [("type", VNumber (Int 1));
                 ("path", VString "/a");
                 ("data", Sample.buf "x");
                 ("acls", VArray [Sample.world_anyone; Sample.world_anyone]);
                 ("mode", VNumber (Int 1))])).
Proof.
  apply (create_resolves_optional_arguments Sample.zk 0%nat (VString "/a")
           (VNumber (Int 1)) (VArray [Sample.world_anyone; Sample.world_anyone])
           (Sample.buf "x") Sample.fresh_world (mkTransaction [] Sample.manager)).
  - reflexivity.
  - reflexivity.
  - discriminate.
Defined.

(** C7. A call of [create] whose ACL list resolves to an empty array, in
    whichever of the optional positions the last array stands, throws and
    appends nothing. The path is validated first: the error is the
    validator's when the path is bad, and the assertion on the ACL list
    otherwise. *)
Theorem create_rejects_empty_acls E this path a1 a2 a3 w :
  last_of JS.isArray [a1; a2; a3] = Some (VArray []) ->
  exists e,
    create E this path a1 a2 a3 w = (Throw e, w)
    /\ (Path_validate E path = None ->
        e = AssertionError "acls must be a non-empty array.").
Proof.
  intros Hlast. rewrite create_runs.
  unfold call_result, rejection, path_rejection, resolved_acls.
  rewrite Hlast. cbn [length Z.of_nat Z.ltb Z.compare].
  destruct (Path_validate E path) as [e|]; eexists; split;
    try reflexivity; congruence.
Qed.

Lemma create_rejects_empty_acls_witness :
  exists e,
    create Sample.zk 0 (VString "/a") (Sample.buf "x") (VNumber (Int 1)) (VArray [])
      Sample.fresh_world
    = (Throw e, Sample.fresh_world)
    /\ (Sample.validate_path (VString "/a") = None ->
        e = AssertionError "acls must be a non-empty array.").
Proof.
  apply (create_rejects_empty_acls Sample.zk 0%nat (VString "/a")
           (Sample.buf "x") (VNumber (Int 1)) (VArray []) Sample.fresh_world).
  reflexivity.
Defined.

(** ** The version of check, setData and remove *)

Lemma resolved_version_omitted : resolved_version VUndefined = VNumber (Int (-1)).
Proof. reflexivity. Qed.

Lemma resolved_version_nonzero z :
  z <> 0%Z -> resolved_version (VNumber (Int z)) = VNumber (Int z).
Proof.
  intros Hz. unfold resolved_version, JS.or. cbn [JS.truthy].
  destruct (Z.eqb_spec z 0); [contradiction | reflexivity].
Qed.

Lemma resolved_version_zero :
  resolved_version (VNumber (Int 0)) = VNumber (Int (-1)).
Proof. reflexivity. Qed.

(** C3, at version 0. [check], [setData] and [remove] called with the
    version 0 store the version -1: [version || -1] takes 0 for a version
    left out. (A version left out is stored as -1 and an integer other than
    0 as itself: [resolved_version_omitted], [resolved_version_nonzero].) *)
Theorem version_zero_is_stored_as_minus_one :
  let w := Sample.fresh_world in
  let t := mkTransaction [] Sample.manager in
  let path := VString "/a" in
  let zero := VNumber (Int 0) in
  let minus_one := VNumber (Int (-1)) in
  check Sample.zk 0 path zero w
  = (Return 0%nat,
     pushed w 0 t (VObject [("type", VNumber (Int 13)); ("path", path);
                            ("version", minus_one)]))
  /\ setData Sample.zk 0 path (Sample.buf "y") zero w
     = (Return 0%nat,
        pushed w 0 t (VObject [("type", VNumber (Int 5)); ("path", path);
                               ("data", Sample.buf "y"); ("version", minus_one)]))
  /\ remove Sample.zk 0 path zero w
     = (Return 0%nat,
        pushed w 0 t (VObject [("type", VNumber (Int 2)); ("path", path);
                               ("version", minus_one)])).
Proof. repeat split. Qed.

(** ** The data of create and setData *)

(** [setData] does turn down data that is neither absent nor a buffer. *)
Lemma setData_rejects_data E this path data version w :
  Path_validate E path = None ->
  absent_or_buffer data = false ->
  setData E this path data version w
  = (Throw (AssertionError "data must be a valid buffer, null or undefined."), w).
Proof.
  intros Hpath Hdata. rewrite setData_runs.
  unfold call_result, rejection, path_rejection. rewrite Hpath, Hdata. reflexivity.
Qed.

(** In [create] the assertion on the data cannot fail: the variable is reset
    and then only ever assigned a buffer. *)
Lemma create_data_always_passes args :
  absent_or_buffer (resolved_data args) = true.
Proof.
  unfold resolved_data.
  destruct (last_of JS.isBuffer args) as [d|] eqn:Hd; [|reflexivity].
  apply last_of_shape in Hd. unfold absent_or_buffer. rewrite Hd.
  apply orb_true_r.
Qed.

(** C5, at a string. [create] called with a string where the data goes does
    not throw: the string is dropped and the operation is appended without
    data. *)
Theorem create_drops_data_that_is_no_buffer :
  absent_or_buffer (VString "x") = false
  /\ create Sample.zk 0 (VString "/a") (VString "x") VUndefined VUndefined
       Sample.fresh_world
     = (Return 0%nat,
        pushed Sample.fresh_world 0 (mkTransaction [] Sample.manager)
          (VObject [("type", VNumber (Int 1)); ("path", VString "/a");
                    ("data", VUndefined);
                    ("acls", VArray [Sample.world_anyone]);
                    ("mode", VNumber (Int 0))])).
Proof. split; reflexivity. Qed.

(** ** Chains of appends, and commit *)

Lemma chain_runs E calls : forall this w t r w',
  heap w !! this = Some t ->
  chain E this calls w = (Return r, w') ->
  r = this
  /\ heap w'
     = <[this := mkTransaction (ops t ++ map (appended_op E) calls)
                               (connectionManager t)]> (heap w)
  /\ events w' = events w.
Proof.
  induction calls as [|c calls IH]; intros this w t r w' Hthis Hrun.
  - cbn in Hrun. injection Hrun as <- <-.
    rewrite app_nil_r. destruct t as [o m]. cbn [ops connectionManager].
    rewrite insert_id by assumption. auto.
  - cbn [chain] in Hrun.
    destruct (call_cases E this c w) as [(t' & Ht' & _ & Hcall) | (e & Hcall)].
    + rewrite (bind_Return _ _ _ _ _ Hcall) in Hrun.
      assert (t' = t) as -> by congruence.
      apply (IH _ _ (mkTransaction (ops t ++ [appended_op E c]) (connectionManager t)))
        in Hrun as (-> & Hheap & Hevents).
      * cbn [ops connectionManager pushed heap events] in Hheap, Hevents.
        rewrite insert_insert_eq, <- app_assoc in Hheap. auto.
      * cbn [pushed heap]. apply lookup_insert_eq.
    + rewrite (bind_Throw _ _ _ _ _ Hcall) in Hrun. discriminate.
Qed.

Lemma commit_runs E this callback w t :
  heap w !! this = Some t ->
  JS.typeof callback = "function" ->
  commit E this callback w
  = (Return tt,
     mkWorld (heap w)
       (events w ++ [Queued (connectionManager t)
                            (mkRequest (OP_CODES_MULTI E) this) callback])).
Proof.
  intros Hthis Hfun. unfold commit. rewrite Hfun.
  unfold bind, read_this; cbn. rewrite Hthis. reflexivity.
Qed.

(** C9. A chain of append calls that all go through, made on a Transaction
    at [this] that holds [ops t], returns [this] and leaves the Transaction
    with [ops t] followed by one operation per call, in the order of the
    calls; nothing has been handed to the connection manager. Committing
    then queues one request, of type MULTI, whose payload is that operation
    array. One call: exactly one operation is appended at the end and [this]
    is returned. Three calls A, B, C on a new Transaction: the sequence is
    [A, B, C]. *)
Theorem appends_accumulate_in_order E this calls callback w t r w' :
  heap w !! this = Some t ->
  JS.typeof callback = "function" ->
  chain E this calls w = (Return r, w') ->
  let sequence := ops t ++ map (appended_op E) calls in
  let request := mkRequest (OP_CODES_MULTI E) this in
  r = this
  /\ heap w' = <[this := mkTransaction sequence (connectionManager t)]> (heap w)
  /\ events w' = events w
  /\ commit E r callback w'
     = (Return tt,
        mkWorld (heap w') (events w ++ [Queued (connectionManager t) request callback]))
  /\ payload_contents w' request = Some sequence.
Proof.
  intros Hthis Hfun Hrun sequence request.
  destruct (chain_runs E calls this w t r w' Hthis Hrun) as (-> & Hheap & Hevents).
  assert (heap w' !! this = Some (mkTransaction sequence (connectionManager t)))
    as Hthis' by (rewrite Hheap; apply lookup_insert_eq).
  repeat split; try assumption.
  - rewrite (commit_runs E this callback w' _ Hthis' Hfun), Hevents. reflexivity.
  - unfold payload_contents. cbn [payload request]. rewrite Hthis'. reflexivity.
Qed.

Lemma appends_accumulate_in_order_witness :
  let A := Create (VString "/a") (Sample.buf "x") VUndefined VUndefined in
  let B := SetData (VString "/a") (Sample.buf "y") (VNumber (Int 1)) in
  let C := Check (VString "/a") (VNumber (Int 2)) in
  let w' := snd (chain Sample.zk 0 [A; B; C] Sample.fresh_world) in
  let sequence :=
    [] ++ map (appended_op Sample.zk) [A; B; C] in
  let request := mkRequest (Int 14) 0 in
  0%nat = 0%nat
  /\ heap w' = <[0%nat := mkTransaction sequence Sample.manager]> (heap Sample.fresh_world)
  /\ events w' = []
  /\ commit Sample.zk 0 Sample.callback w'
     = (Return tt,
        mkWorld (heap w') ([] ++ [Queued Sample.manager request Sample.callback]))
  /\ payload_contents w' request = Some sequence.
Proof.
  apply (appends_accumulate_in_order Sample.zk 0%nat
           [Create (VString "/a") (Sample.buf "x") VUndefined VUndefined;
            SetData (VString "/a") (Sample.buf "y") (VNumber (Int 1));
            Check (VString "/a") (VNumber (Int 2))]
           Sample.callback Sample.fresh_world (mkTransaction [] Sample.manager)).
  - reflexivity.
  - reflexivity.
  - reflexivity.
Defined.

(** ** What commit leaves behind *)

(** The scan touches nothing, also when it throws on an entry that is
    [null] or [undefined]. *)
Lemma scan_world E results error : forall w, snd (scan E results error w) = w.
Proof.
  induction results as [|result rest IH]; intros w; [reflexivity|].
  cbn [scan]. unfold bind at 1, get.
  destruct (JS.property result "type") as [kind|]; [|reflexivity].
  cbn [ret]. destruct (JS.strict_equals_number kind (OP_CODES_ERROR E)); [|apply IH].
  unfold bind at 1.
  destruct (JS.property result "err") as [code|]; [|reflexivity].
  cbn [ret].
  destruct (negb (JS.strict_equals_number code (Exception_OK E))); [|apply IH].
  reflexivity.
Qed.

Lemma commit_completion_heap E callback error response w :
  heap (snd (commit_completion E callback error response w)) = heap w.
Proof.
  unfold commit_completion.
  destruct (JS.truthy error); [reflexivity|].
  destruct response as [results|]; [|reflexivity].
  unfold bind at 1, response_results. cbn [ret].
  unfold bind. pose proof (scan_world E results error w) as Hscan.
  destruct (scan E results error w) as [[scanned|e] w1]; cbn in Hscan; subst w1;
    reflexivity.
Qed.

(** An append call reads and writes the heap only. *)
Lemma call_frame E this c w w0 :
  heap w0 = heap w ->
  fst (call E this c w0) = fst (call E this c w)
  /\ heap (snd (call E this c w0)) = heap (snd (call E this c w)).
Proof.
  intros Hheap. rewrite !call_runs. unfold call_result.
  destruct (rejection E c); [auto|].
  rewrite !push_op_then_return, Hheap.
  destruct (heap w !! this); cbn [fst snd pushed heap]; rewrite ?Hheap; auto.
Qed.

(** C10. [commit] returns having queued its request and changed no
    Transaction: the heap, with the operation sequence and the connection
    manager of [this], is what it was. The completion callback, whatever
    the dispatcher passes it, changes none either. Nothing records that the
    Transaction was committed: afterwards every append call has the outcome
    and the effect on the heap it would have had before, and a second commit
    queues the request again. *)
Theorem commit_changes_no_transaction E this callback t w :
  heap w !! this = Some t ->
  JS.typeof callback = "function" ->
  exists w1,
    commit E this callback w = (Return tt, w1)
    /\ heap w1 = heap w
    /\ forall error response,
        let w2 := snd (commit_completion E callback error response w1) in
        heap w2 = heap w
        /\ (forall c,
              fst (call E this c w2) = fst (call E this c w)
              /\ heap (snd (call E this c w2)) = heap (snd (call E this c w)))
        /\ (forall callback',
              JS.typeof callback' = "function" ->
              commit E this callback' w2
              = (Return tt,
                 mkWorld (heap w2)
                   (events w2 ++ [Queued (connectionManager t)
                                         (mkRequest (OP_CODES_MULTI E) this)
                                         callback']))).
Proof.
  intros Hthis Hfun. eexists. split; [apply (commit_runs E this callback w t Hthis Hfun)|].
  split; [reflexivity|].
  intros error response w2.
  assert (heap w2 = heap w) as Hheap
    by (unfold w2; rewrite commit_completion_heap; reflexivity).
  split; [exact Hheap|]. split.
  - intros c. apply call_frame. exact Hheap.
  - intros callback' Hfun'. apply commit_runs; [|exact Hfun'].
    rewrite Hheap. exact Hthis.
Qed.

Lemma commit_changes_no_transaction_witness :
  let w := snd (chain Sample.zk 0 [Check (VString "/a") (VNumber (Int 2))]
                  Sample.fresh_world) in
  let t := mkTransaction [appended_op Sample.zk (Check (VString "/a") (VNumber (Int 2)))]
             Sample.manager in
  exists w1,
    commit Sample.zk 0 Sample.callback w = (Return tt, w1)
    /\ heap w1 = heap w
    /\ forall error response,
        let w2 := snd (commit_completion Sample.zk Sample.callback error response w1) in
        heap w2 = heap w
        /\ (forall c,
              fst (call Sample.zk 0 c w2) = fst (call Sample.zk 0 c w)
              /\ heap (snd (call Sample.zk 0 c w2)) = heap (snd (call Sample.zk 0 c w)))
        /\ (forall callback',
              JS.typeof callback' = "function" ->
              commit Sample.zk 0 callback' w2
              = (Return tt,
                 mkWorld (heap w2)
                   (events w2 ++ [Queued (connectionManager t)
                                         (mkRequest (Int 14) 0)
                                         callback']))).
Proof.
  apply (commit_changes_no_transaction Sample.zk 0%nat Sample.callback
           (mkTransaction [appended_op Sample.zk (Check (VString "/a") (VNumber (Int 2)))]
              Sample.manager)).
  - reflexivity.
  - reflexivity.
Defined.

(** ** The constructor *)

(** X1. [new Transaction(manager)] with a connection manager returns an
    address that was not in use, where it has put a Transaction with no
    operation and that manager; every Transaction there was is left as it
    was and nothing is handed to the outside. *)
Theorem new_Transaction_allocates_fresh E manager w :
  instanceof_ConnectionManager E manager = true ->
  exists this w',
    new_Transaction E manager w = (Return this, w')
    /\ heap w !! this = None
    /\ heap w' !! this = Some (mkTransaction [] manager)
    /\ (forall other, other <> this -> heap w' !! other = heap w !! other)
    /\ events w' = events w.
Proof.
  intros Hmanager.
  destruct (new_Transaction_runs E manager w Hmanager) as (this & Hfree & Hrun).
  exists this. eexists. split; [exact Hrun|]. cbn [heap events].
  split; [exact Hfree|]. split; [apply lookup_insert_eq|]. split; [|reflexivity].
  intros other Hother. apply lookup_insert_ne. congruence.
Qed.

Lemma new_Transaction_allocates_fresh_witness :
  exists this w',
    new_Transaction Sample.zk Sample.manager Sample.two_world = (Return this, w')
    /\ heap Sample.two_world !! this = None
    /\ heap w' !! this = Some (mkTransaction [] Sample.manager)
    /\ (forall other, other <> this -> heap w' !! other = heap Sample.two_world !! other)
    /\ events w' = events Sample.two_world.
Proof.
  apply (new_Transaction_allocates_fresh Sample.zk Sample.manager Sample.two_world).
  reflexivity.
Defined.

(** X2. [new Transaction(x)] with anything that is not a connection manager
    throws the assertion's error and allocates nothing. *)
Theorem new_Transaction_rejects_other_managers E manager w :
  instanceof_ConnectionManager E manager = false ->
  new_Transaction E manager w
  = (Throw (AssertionError
              "connectionManager must be an instance of ConnectionManager."), w).
Proof. intros Hmanager. unfold new_Transaction. rewrite Hmanager. reflexivity. Qed.

Lemma new_Transaction_rejects_other_managers_witness :
  new_Transaction Sample.zk (VString "localhost:2181") Sample.two_world
  = (Throw (AssertionError
              "connectionManager must be an instance of ConnectionManager."),
     Sample.two_world).
Proof.
  apply (new_Transaction_rejects_other_managers Sample.zk (VString "localhost:2181")
           Sample.two_world).
  reflexivity.
Defined.

(** ** commit without a callback *)

(** X3. [commit] called with something that is not a function ([undefined]
    when the callback is left out) throws before it reads the Transaction:
    nothing is queued and the world is as before, whatever the Transaction
    holds. *)
Theorem commit_requires_a_function E this callback w :
  JS.typeof callback <> "function" ->
  commit E this callback w
  = (Throw (AssertionError "callback must be a function"), w).
Proof.
  intros Hnot. unfold commit.
  destruct (String.eqb_spec (JS.typeof callback) "function") as [Heq|_];
    [contradiction | reflexivity].
Qed.

Lemma commit_requires_a_function_witness :
  commit Sample.zk 0 VUndefined Sample.two_world
  = (Throw (AssertionError "callback must be a function"), Sample.two_world).
Proof.
  apply (commit_requires_a_function Sample.zk 0%nat VUndefined Sample.two_world).
  discriminate.
Defined.

(** ** The checks of the append methods *)

(** X4. [check], [setData] and [remove] turn down a version that is truthy
    and not a number (a string such as '3', [true], an object): with an
    accepted path, and data that passes for [setData], they throw 'version
    must be a number.' and append nothing. *)
Theorem truthy_version_must_be_a_number E this path data version w :
  Path_validate E path = None ->
  absent_or_buffer data = true ->
  JS.truthy version = true ->
  is_number version = false ->
  let rejected := (Throw (AssertionError "version must be a number."), w) in
  check E this path version w = rejected
  /\ setData E this path data version w = rejected
  /\ remove E this path version w = rejected.
Proof.
  intros Hpath Hdata Htruthy Hnumber rejected.
  rewrite check_runs, setData_runs, remove_runs.
  unfold call_result, rejection, path_rejection, resolved_version, JS.or.
  rewrite Hpath, Hdata, Htruthy, Hnumber. auto.
Qed.

Lemma truthy_version_must_be_a_number_witness :
  let w := Sample.two_world in
  let rejected := (Throw (AssertionError "version must be a number."), w) in
  check Sample.zk 0 (VString "/a") (VString "3") w = rejected
  /\ setData Sample.zk 0 (VString "/a") VNull (VString "3") w = rejected
  /\ remove Sample.zk 0 (VString "/a") (VString "3") w = rejected.
Proof.
  apply (truthy_version_must_be_a_number Sample.zk 0%nat (VString "/a") VNull
           (VString "3") Sample.two_world); reflexivity.
Defined.

(** X5. A version that is falsy without being a number ([undefined], [null],
    [false], the empty string) is not turned down: it counts as left out,
    and [check], [setData] and [remove] append their operation with the
    version -1. *)
Theorem falsy_version_counts_as_omitted E this path data version w t :
  Path_validate E path = None ->
  heap w !! this = Some t ->
  absent_or_buffer data = true ->
  JS.truthy version = false ->
  is_number version = false ->
  let any := VNumber (Int (-1)) in
  check E this path version w
  = (Return this,
     pushed w this t (VObject [("type", VNumber (OP_CODES_CHECK E)); ("path", path);
                               ("version", any)]))
  /\ setData E this path data version w
     = (Return this,
        pushed w this t (VObject [("type", VNumber (OP_CODES_SET_DATA E));
                                  ("path", path); ("data", data); ("version", any)]))
  /\ remove E this path version w
     = (Return this,
        pushed w this t (VObject [("type", VNumber (OP_CODES_DELETE E)); ("path", path);
                                  ("version", any)])).
Proof.
  intros Hpath Hthis Hdata Hfalsy _ any.
  rewrite check_runs, setData_runs, remove_runs.
  unfold call_result, rejection, path_rejection, appended_op, resolved_version, JS.or.
  rewrite Hpath, Hdata, Hfalsy. cbn [is_number JS.typeof String.eqb].
  rewrite !push_op_then_return, Hthis. auto.
Qed.

Lemma falsy_version_counts_as_omitted_witness :
  let w := Sample.fresh_world in
  let t := mkTransaction [] Sample.manager in
  let path := VString "/a" in
  let any := VNumber (Int (-1)) in
  check Sample.zk 0 path VNull w
  = (Return 0%nat,
     pushed w 0 t (VObject [("type", VNumber (Int 13)); ("path", path);
                            ("version", any)]))
  /\ setData Sample.zk 0 path (Sample.buf "y") VNull w
     = (Return 0%nat,
        pushed w 0 t (VObject [("type", VNumber (Int 5));
                               ("path", path); ("data", Sample.buf "y");
                               ("version", any)]))
  /\ remove Sample.zk 0 path VNull w
     = (Return 0%nat,
        pushed w 0 t (VObject [("type", VNumber (Int 2)); ("path", path);
                               ("version", any)])).
Proof.
  apply (falsy_version_counts_as_omitted Sample.zk 0%nat (VString "/a")
           (Sample.buf "y") VNull Sample.fresh_world (mkTransaction [] Sample.manager));
    reflexivity.
Defined.

(** X6. In all four append methods the path is validated before any other
    argument is checked: with a path the validator turns down, the call
    throws the validator's error, whatever the other arguments are, and
    appends nothing. *)
Theorem path_is_validated_first E this c e w :
  Path_validate E (path_of c) = Some e ->
  call E this c w = (Throw e, w).
Proof.
  intros Hpath. rewrite call_runs. unfold call_result.
  destruct c; cbn [path_of] in Hpath; cbn [rejection]; unfold path_rejection;
    rewrite Hpath; reflexivity.
Qed.

Lemma path_is_validated_first_witness :
  call Sample.zk 0 (SetData (VString "a") (VString "no buffer") (VString "no number"))
    Sample.two_world
  = (Throw (AssertionError "Node path must start with / character."),
     Sample.two_world).
Proof.
  apply (path_is_validated_first Sample.zk 0%nat
           (SetData (VString "a") (VString "no buffer") (VString "no number"))).
  reflexivity.
Defined.

(** X7. With an accepted path, the one thing [create] turns a call down for
    is an empty ACL list: when it throws, the error is 'acls must be a
    non-empty array.' and the resolved list is empty. It never throws over
    the data or the mode, whatever is passed for them. *)
Theorem create_only_rejects_empty_acls E this path a1 a2 a3 w t e w' :
  Path_validate E path = None ->
  heap w !! this = Some t ->
  create E this path a1 a2 a3 w = (Throw e, w') ->
  e = AssertionError "acls must be a non-empty array."
  /\ resolved_acls E [a1; a2; a3] = [].
Proof.
  intros Hpath Hthis. rewrite create_runs.
  unfold call_result, rejection, path_rejection. rewrite Hpath.
  destruct (resolved_acls E [a1; a2; a3]) as [|acl acls].
  - cbn. intros [= <- _]. auto.
  - cbn [length Z.of_nat Z.ltb Z.compare]. rewrite push_op_then_return, Hthis.
    discriminate.
Qed.

Lemma create_only_rejects_empty_acls_witness :
  AssertionError "acls must be a non-empty array."
  = AssertionError "acls must be a non-empty array."
  /\ resolved_acls Sample.zk [VString "text"; VArray []; VBool true] = [].
Proof.
  apply (create_only_rejects_empty_acls Sample.zk 0%nat (VString "/a")
           (VString "text") (VArray []) (VBool true)
           Sample.two_world
           (mkTransaction
              [VObject [("type", VNumber (Int 13)); ("path", VString "/a");
                        ("version", VNumber (Int 2))]]
              Sample.manager)
           (AssertionError "acls must be a non-empty array.") Sample.two_world);
    reflexivity.
Defined.

(** ** The optional arguments of create *)

Lemma last_of_as_seen shape args :
  shape VUndefined = false ->
  (forall x, shape x = true -> classifiable x = true) ->
  last_of shape (map as_seen args) = last_of shape args.
Proof.
  intros Hundefined Hshape. unfold last_of. rewrite <- map_rev.
  induction (rev args) as [|x l IH]; [reflexivity|].
  cbn [map List.find]. rewrite IH. unfold as_seen.
  destruct (classifiable x) eqn:Hx; [reflexivity|].
  rewrite Hundefined. destruct (shape x) eqn:Hsx; [|reflexivity].
  rewrite (Hshape x Hsx) in Hx. discriminate.
Qed.

(** X8. [create] does not look at an optional argument that is neither an
    array, a number nor a buffer: a string, a boolean, [null], an object or
    a function in any of the three positions gives the very outcome of
    leaving that argument out. *)
Theorem create_ignores_other_shapes E this path a1 a2 a3 w :
  create E this path a1 a2 a3 w
  = create E this path (as_seen a1) (as_seen a2) (as_seen a3) w.
Proof.
  rewrite !create_runs.
  unfold call_result, rejection, appended_op, resolved_data, resolved_acls,
    resolved_mode.
  change [as_seen a1; as_seen a2; as_seen a3] with (map as_seen [a1; a2; a3]).
  rewrite !last_of_as_seen; try reflexivity; unfold classifiable; intros x ->;
    rewrite ?orb_true_r; reflexivity.
Qed.

Lemma find_head_filter {A} (f : A -> bool) l :
  List.find f l = head (List.filter f l).
Proof.
  induction l as [|x l IH]; [reflexivity|]. cbn. destruct (f x); auto.
Qed.

Lemma last_of_the_only_one shape args :
  at_most_one shape args -> last_of shape args = head (List.filter shape args).
Proof.
  unfold at_most_one, last_of. rewrite find_head_filter, List.filter_rev.
  destruct (List.filter shape args) as [|x [|y rest]]; cbn; intros Hlen;
    [reflexivity | reflexivity | lia].
Qed.

Lemma Permutation_bool_filter {A} (f : A -> bool) l l' :
  Permutation l l' -> Permutation (List.filter f l) (List.filter f l').
Proof.
  induction 1 as [|x l l' _ IH|x y l|l l' l'' _ IH1 _ IH2]; cbn.
  - constructor.
  - destruct (f x); [constructor|]; exact IH.
  - destruct (f x), (f y); try reflexivity. constructor.
  - etransitivity; eassumption.
Qed.

Lemma last_of_permuted shape args args' :
  Permutation args args' ->
  at_most_one shape args ->
  last_of shape args' = last_of shape args.
Proof.
  intros Hperm Hone.
  pose proof (Permutation_bool_filter shape _ _ Hperm) as Hfilter.
  assert (at_most_one shape args') as Hone'
    by (unfold at_most_one in *; rewrite <- (Permutation_length Hfilter); exact Hone).
  rewrite !last_of_the_only_one by assumption.
  unfold at_most_one in Hone.
  destruct (List.filter shape args) as [|x [|y rest]]; cbn in Hone; [| |lia].
  - apply Permutation_nil in Hfilter. rewrite Hfilter. reflexivity.
  - apply Permutation_length_1_inv in Hfilter. rewrite Hfilter. reflexivity.
Qed.

(** X9. When no two of the optional arguments of [create] have the same
    shape (at most one array, one number, one buffer), their order does not
    matter: the call has the same outcome for every arrangement of the
    three. *)
Theorem create_takes_arguments_in_any_order E this path a1 a2 a3 b1 b2 b3 w :
  Permutation [a1; a2; a3] [b1; b2; b3] ->
  at_most_one JS.isArray [a1; a2; a3] ->
  at_most_one is_number [a1; a2; a3] ->
  at_most_one JS.isBuffer [a1; a2; a3] ->
  create E this path b1 b2 b3 w = create E this path a1 a2 a3 w.
Proof.
  intros Hperm Harray Hnumber Hbuffer. rewrite !create_runs.
  unfold call_result, rejection, appended_op, resolved_data, resolved_acls,
    resolved_mode.
  rewrite (last_of_permuted JS.isArray _ _ Hperm Harray),
    (last_of_permuted is_number _ _ Hperm Hnumber),
    (last_of_permuted JS.isBuffer _ _ Hperm Hbuffer).
  reflexivity.
Qed.

Lemma create_takes_arguments_in_any_order_witness :
  create Sample.zk 0 (VString "/a")
    (VNumber (Int 1)) (VArray [Sample.world_anyone]) (Sample.buf "x") Sample.two_world
  = create Sample.zk 0 (VString "/a")
      (Sample.buf "x") (VArray [Sample.world_anyone]) (VNumber (Int 1)) Sample.two_world.
Proof.
  apply (create_takes_arguments_in_any_order Sample.zk 0%nat (VString "/a")
           (Sample.buf "x") (VArray [Sample.world_anyone]) (VNumber (Int 1))
           (VNumber (Int 1)) (VArray [Sample.world_anyone]) (Sample.buf "x")).
  - apply (perm_trans (l' := [VArray [Sample.world_anyone]; Sample.buf "x";
                               VNumber (Int 1)])).
    + apply perm_swap.
    + apply (perm_trans (l' := [VArray [Sample.world_anyone]; VNumber (Int 1);
                                 Sample.buf "x"])).
      * apply perm_skip, perm_swap.
      * apply perm_swap.
  - unfold at_most_one. cbn. lia.
  - unfold at_most_one. cbn. lia.
  - unfold at_most_one. cbn. lia.
Defined.

(** ** Chains that pass and chains that fail *)

Lemma call_passes E this c w t :
  heap w !! this = Some t ->
  rejection E c = None ->
  call E this c w = (Return this, pushed w this t (appended_op E c)).
Proof.
  intros Hthis Hpass. rewrite call_runs. unfold call_result.
  rewrite Hpass, push_op_then_return, Hthis. reflexivity.
Qed.

Lemma call_fails E this c e w :
  rejection E c = Some e -> call E this c w = (Throw e, w).
Proof.
  intros Hfail. rewrite call_runs. unfold call_result. rewrite Hfail. reflexivity.
Qed.

(** Writing a Transaction back with nothing added changes nothing. *)
Lemma insert_same_Transaction (w : world) this t :
  heap w !! this = Some t ->
  mkWorld (<[this := mkTransaction (ops t ++ []) (connectionManager t)]> (heap w))
          (events w) = w.
Proof.
  intros Hthis. rewrite app_nil_r. destruct t as [o m], w as [h ev].
  cbn in *. rewrite insert_id by assumption. reflexivity.
Qed.

Lemma chain_passes E calls : forall this w t,
  heap w !! this = Some t ->
  Forall (fun c => rejection E c = None) calls ->
  chain E this calls w
  = (Return this,
     mkWorld (<[this := mkTransaction (ops t ++ map (appended_op E) calls)
                                      (connectionManager t)]> (heap w))
             (events w)).
Proof.
  induction calls as [|c calls IH]; intros this w t Hthis Hpass.
  - cbn [chain map]. rewrite insert_same_Transaction by assumption. reflexivity.
  - inversion Hpass as [|? ? Hc Hrest]; subst. cbn [chain].
    rewrite (bind_Return _ _ _ _ _ (call_passes E this c w t Hthis Hc)).
    rewrite (IH this _ (mkTransaction (ops t ++ [appended_op E c]) (connectionManager t)))
      by (assumption || apply lookup_insert_eq).
    cbn [pushed heap events ops connectionManager map].
    rewrite insert_insert_eq, <- app_assoc. reflexivity.
Qed.

(** X10. A fluent chain stops at the first call that is turned down and
    throws that call's error; the operations of the calls before it stay
    appended (nothing is taken back) and the calls after it are not made. *)
Theorem chain_stops_at_first_rejection E this before c after e w t :
  heap w !! this = Some t ->
  Forall (fun c => rejection E c = None) before ->
  rejection E c = Some e ->
  chain E this (before ++ c :: after) w
  = (Throw e,
     mkWorld (<[this := mkTransaction (ops t ++ map (appended_op E) before)
                                      (connectionManager t)]> (heap w))
             (events w)).
Proof.
  intros Hthis Hpass Hfail. revert w t Hthis.
  induction Hpass as [|b before Hb _ IH]; intros w t Hthis.
  - cbn [app chain map].
    rewrite (bind_Throw _ _ _ _ _ (call_fails E this c e w Hfail)).
    rewrite insert_same_Transaction by assumption. reflexivity.
  - rewrite <- app_comm_cons. cbn [chain].
    rewrite (bind_Return _ _ _ _ _ (call_passes E this b w t Hthis Hb)).
    rewrite (IH _ (mkTransaction (ops t ++ [appended_op E b]) (connectionManager t)))
      by apply lookup_insert_eq.
    cbn [pushed heap events ops connectionManager map].
    rewrite insert_insert_eq, <- app_assoc. reflexivity.
Qed.

Lemma chain_stops_at_first_rejection_witness :
  let A := Create (VString "/a") (Sample.buf "x") VUndefined VUndefined in
  let B := Remove (VString "b") VUndefined in
  let C := Check (VString "/a") (VNumber (Int 2)) in
  chain Sample.zk 0 ([A] ++ B :: [C]) Sample.fresh_world
  = (Throw (AssertionError "Node path must start with / character."),
     mkWorld (<[0%nat := mkTransaction ([] ++ map (appended_op Sample.zk) [A])
                                       Sample.manager]> (heap Sample.fresh_world))
             []).
Proof.
  apply (chain_stops_at_first_rejection Sample.zk 0%nat
           [Create (VString "/a") (Sample.buf "x") VUndefined VUndefined]
           (Remove (VString "b") VUndefined)
           [Check (VString "/a") (VNumber (Int 2))]
           (AssertionError "Node path must start with / character.")
           Sample.fresh_world (mkTransaction [] Sample.manager)).
  - reflexivity.
  - repeat constructor.
  - reflexivity.
Defined.

(** X11. A whole use that passes every check: [new Transaction(manager)]
    with a connection manager, appends that are all accepted, [commit] with a
    function. It returns the new Transaction, which holds one operation per
    call in call order and nothing else; exactly one request is queued, of
    type MULTI, on the manager given to the constructor, with that operation
    array as payload and the callback given to [commit]; the Transactions
    that were there are untouched. *)
Theorem build_and_commit_queues_the_chain E manager calls callback w :
  instanceof_ConnectionManager E manager = true ->
  Forall (fun c => rejection E c = None) calls ->
  JS.typeof callback = "function" ->
  exists this,
    heap w !! this = None
    /\ build_and_commit E manager calls callback w
       = (Return this,
          mkWorld
            (<[this := mkTransaction (map (appended_op E) calls) manager]> (heap w))
            (events w ++ [Queued manager (mkRequest (OP_CODES_MULTI E) this) callback])).
Proof.
  intros Hmanager Hpass Hfun.
  destruct (new_Transaction_runs E manager w Hmanager) as (this & Hfree & Hnew).
  exists this. split; [exact Hfree|]. unfold build_and_commit.
  rewrite (bind_Return _ _ _ _ _ Hnew).
  rewrite (bind_Return _ _ _ _ _
             (chain_passes E calls this _ (mkTransaction [] manager)
                (lookup_insert_eq _ _ _) Hpass)).
  cbn [heap events ops connectionManager app]. rewrite insert_insert_eq.
  erewrite bind_Return
    by (apply commit_runs; [apply lookup_insert_eq | exact Hfun]).
  reflexivity.
Qed.

Lemma build_and_commit_queues_the_chain_witness :
  let calls :=
    [Create (VString "/a") (Sample.buf "x") VUndefined VUndefined;
     SetData (VString "/a") (Sample.buf "y") (VNumber (Int 1));
     Check (VString "/a") (VNumber (Int 2))] in
  exists this,
    heap Sample.two_world !! this = None
    /\ build_and_commit Sample.zk Sample.manager calls Sample.callback Sample.two_world
       = (Return this,
          mkWorld
            (<[this := mkTransaction (map (appended_op Sample.zk) calls) Sample.manager]>
               (heap Sample.two_world))
            (events Sample.two_world
             ++ [Queued Sample.manager (mkRequest (Int 14) this) Sample.callback])).
Proof.
  apply (build_and_commit_queues_the_chain Sample.zk Sample.manager
           [Create (VString "/a") (Sample.buf "x") VUndefined VUndefined;
            SetData (VString "/a") (Sample.buf "y") (VNumber (Int 1));
            Check (VString "/a") (VNumber (Int 2))]
           Sample.callback Sample.two_world).
  - reflexivity.
  - repeat constructor.
  - reflexivity.
Defined.

(** ** What every run keeps *)

Lemma commit_heap E this callback w :
  heap (snd (commit E this callback w)) = heap w.
Proof.
  unfold commit, bind, assert, read_this.
  destruct (JS.typeof callback =? "function")%string; [|reflexivity].
  cbn [ret]. destruct (heap w !! this); reflexivity.
Qed.

Lemma new_Transaction_cases E manager w :
  snd (new_Transaction E manager w) = w
  \/ exists this,
       heap w !! this = None
       /\ snd (new_Transaction E manager w)
          = mkWorld (<[this := mkTransaction [] manager]> (heap w)) (events w).
Proof.
  destruct (instanceof_ConnectionManager E manager) eqn:Hmanager.
  - right. destruct (new_Transaction_runs E manager w Hmanager) as (this & Hfree & Hrun).
    exists this. rewrite Hrun. auto.
  - left. unfold new_Transaction. rewrite Hmanager. reflexivity.
Qed.

(** The operation of a call that passes its checks has passed them. *)
Lemma appended_op_validated E c :
  rejection E c = None -> validated E (appended_op E c).
Proof.
  destruct c as [path data acls mode|path version|path data version|path version];
    cbn [rejection appended_op]; unfold path_rejection;
    destruct (Path_validate E path) eqn:Hpath; try discriminate.
  - destruct (resolved_acls E [data; acls; mode]) as [|acl rest] eqn:Hacls;
      [discriminate|]. intros _.
    rewrite <- Hacls. apply validated_create; [assumption|congruence| |].
    + unfold resolved_data.
      destruct (last_of JS.isBuffer _) as [d|] eqn:Hd; [right|left; reflexivity].
      exact (last_of_shape _ _ _ Hd).
    + unfold resolved_mode.
      destruct (last_of is_number _) as [m|] eqn:Hm; [left|right; reflexivity].
      exact (last_of_shape _ _ _ Hm).
  - destruct (is_number (resolved_version version)) eqn:Hv; [|discriminate].
    intros _. apply validated_check; assumption.
  - destruct (absent_or_buffer data) eqn:Hd; [|discriminate].
    destruct (is_number (resolved_version version)) eqn:Hv; [|discriminate].
    intros _. apply validated_setData; assumption.
  - destruct (is_number (resolved_version version)) eqn:Hv; [|discriminate].
    intros _. apply validated_remove; assumption.
Qed.

Lemma api_step_validated E a w :
  all_validated E w -> all_validated E (api_step E a w).
Proof.
  intros Hall. destruct a as [manager|this c|this callback|callback error response];
    cbn [api_step].
  - destruct (new_Transaction_cases E manager w) as [-> | (this & _ & ->)];
      [exact Hall|].
    intros addr t. cbn [heap]. rewrite lookup_insert.
    case_decide; [intros [= <-]; constructor | apply Hall].
  - destruct (call_cases E this c w) as [(t & Ht & Hpass & ->) | (e & ->)];
      [|exact Hall].
    intros addr t'. cbn [snd pushed heap]. rewrite lookup_insert.
    case_decide; [|apply Hall]. intros [= <-]. cbn [ops].
    apply Forall_app. split; [exact (Hall this t Ht)|].
    constructor; [|constructor]. apply appended_op_validated, Hpass.
  - intros addr t. rewrite commit_heap. apply Hall.
  - intros addr t. rewrite commit_completion_heap. apply Hall.
Qed.

(** X12. Whatever is done, in whatever order and whether the calls return
    or throw (constructing, appending, committing, replies from the
    dispatcher), every operation of every Transaction has passed the checks
    of the method that appended it: its path was accepted by the validator,
    a Create has a non-empty ACL list and data that is [undefined] or a
    buffer, a SetData has data that is absent or a buffer, and a Check,
    SetData or Delete has a number for its version. *)
Theorem operations_are_always_validated E calls :
  all_validated E (api_run E calls empty_world).
Proof.
  unfold api_run.
  assert (all_validated E empty_world) as Hempty.
  { intros this t. cbn. rewrite lookup_empty. discriminate. }
  revert Hempty. generalize empty_world.
  induction calls as [|a calls IH]; intros w Hw; [exact Hw|].
  cbn [fold_left]. apply IH, api_step_validated, Hw.
Qed.

Lemma extends_refl t : extends t t.
Proof. split; [reflexivity|]. exists []. symmetry. apply app_nil_r. Qed.

Lemma extends_trans t1 t2 t3 : extends t1 t2 -> extends t2 t3 -> extends t1 t3.
Proof.
  intros [Hm1 [more1 Ho1]] [Hm2 [more2 Ho2]]. split; [congruence|].
  exists (more1 ++ more2). rewrite Ho2, Ho1, app_assoc. reflexivity.
Qed.

Lemma api_step_extends E a w this t :
  heap w !! this = Some t ->
  exists t', heap (api_step E a w) !! this = Some t' /\ extends t t'.
Proof.
  intros Hthis.
  destruct a as [manager|target c|target callback|callback error response];
    cbn [api_step].
  - destruct (new_Transaction_cases E manager w) as [-> | (fresh & Hfree & ->)];
      [eauto using extends_refl|].
    exists t. split; [|apply extends_refl]. cbn [heap].
    rewrite lookup_insert_ne by congruence. exact Hthis.
  - destruct (call_cases E target c w) as [(t0 & Ht0 & _ & ->) | (e & ->)];
      [|eauto using extends_refl].
    cbn [snd pushed heap]. destruct (decide (target = this)) as [->|Hne].
    + rewrite lookup_insert_eq. eexists. split; [reflexivity|].
      assert (t0 = t) as -> by congruence. split; cbn; eauto.
    + rewrite lookup_insert_ne by assumption. eauto using extends_refl.
  - rewrite commit_heap. eauto using extends_refl.
  - rewrite commit_completion_heap. eauto using extends_refl.
Qed.

(** X13. The operation list is append-only. Whatever is done afterwards, a
    Transaction that exists keeps existing with the connection manager it
    was constructed with, and the operations it holds stay where they are,
    as the first operations of its sequence: none is ever removed,
    replaced or moved, by calls on it or on any other Transaction. *)
Theorem operations_are_never_taken_back E calls : forall w this t,
  heap w !! this = Some t ->
  exists t', heap (api_run E calls w) !! this = Some t' /\ extends t t'.
Proof.
  unfold api_run. induction calls as [|a calls IH]; intros w this t Hthis.
  - cbn. eauto using extends_refl.
  - cbn [fold_left].
    destruct (api_step_extends E a w this t Hthis) as (t1 & Ht1 & Hext1).
    destruct (IH _ this t1 Ht1) as (t2 & Ht2 & Hext2).
    eauto using extends_trans.
Qed.

Lemma operations_are_never_taken_back_witness :
  let kept := VObject [("type", VNumber (Int 13)); ("path", VString "/a");
                       ("version", VNumber (Int 2))] in
  exists t',
    heap (api_run Sample.zk
            [Append 0 (Remove (VString "/a") VUndefined);
             Commit 0 Sample.callback;
             Append 1 (Check (VString "/b") VUndefined);
             Complete Sample.callback VNull (Some [Sample.failed (-101)]);
             Append 0 (Create (VString "") VUndefined VUndefined VUndefined);
             New Sample.manager]
            Sample.two_world) !! 0%nat = Some t'
    /\ extends (mkTransaction [kept] Sample.manager) t'.
Proof.
  apply (operations_are_never_taken_back Sample.zk
           [Append 0 (Remove (VString "/a") VUndefined);
            Commit 0 Sample.callback;
            Append 1 (Check (VString "/b") VUndefined);
            Complete Sample.callback VNull (Some [Sample.failed (-101)]);
            Append 0 (Create (VString "") VUndefined VUndefined VUndefined);
            New Sample.manager]
           Sample.two_world 0%nat).
  reflexivity.
Defined.

(** X14. An append call on one Transaction leaves every other Transaction
    exactly as it is, and hands nothing to the outside, whether it returns
    or throws. *)
Theorem append_touches_only_its_Transaction E this c w other :
  other <> this ->
  heap (snd (call E this c w)) !! other = heap w !! other
  /\ events (snd (call E this c w)) = events w.
Proof.
  intros Hother.
  destruct (call_cases E this c w) as [(t & _ & _ & ->) | (e & ->)]; [|auto].
  cbn [snd pushed heap events]. split; [|reflexivity].
  apply lookup_insert_ne. congruence.
Qed.

Lemma append_touches_only_its_Transaction_witness :
  let c := Create (VString "/a") VUndefined VUndefined VUndefined in
  heap (snd (call Sample.zk 1 c Sample.two_world)) !! 0%nat
  = heap Sample.two_world !! 0%nat
  /\ events (snd (call Sample.zk 1 c Sample.two_world)) = events Sample.two_world.
Proof.
  apply (append_touches_only_its_Transaction Sample.zk 1%nat
           (Create (VString "/a") VUndefined VUndefined VUndefined)
           Sample.two_world 0%nat).
  discriminate.
Defined.

(** ** The completion callback on any reply *)

Lemma scan_cons E result rest error w :
  scan E (result :: rest) error w
  = match JS.property result "type" with
    | None => (Throw (TypeError "Cannot read property type"), w)
    | Some kind =>
        if JS.strict_equals_number kind (OP_CODES_ERROR E) then
          match JS.property result "err" with
          | None => (Throw (TypeError "Cannot read property err"), w)
          | Some code =>
              if negb (JS.strict_equals_number code (Exception_OK E))
              then (Return (Exception_create E code), w)
              else scan E rest error w
          end
        else scan E rest error w
    end.
Proof.
  cbn [scan]. unfold bind, get.
  destruct (JS.property result "type") as [kind|]; [|reflexivity].
  cbn [ret]. destruct (JS.strict_equals_number kind (OP_CODES_ERROR E)); [|reflexivity].
  destruct (JS.property result "err") as [code|]; [|reflexivity].
  cbn [ret].
  destruct (negb (JS.strict_equals_number code (Exception_OK E))); reflexivity.
Qed.

Lemma scan_cases E results error : forall w,
  (exists scanned, scan E results error w = (Return scanned, w))
  \/ (exists message, scan E results error w = (Throw (TypeError message), w)).
Proof.
  induction results as [|result rest IH]; intros w; [left; eexists; reflexivity|].
  rewrite scan_cons.
  destruct (JS.property result "type") as [kind|]; [|eauto].
  destruct (JS.strict_equals_number kind (OP_CODES_ERROR E)); [|apply IH].
  destruct (JS.property result "err") as [code|]; [|eauto].
  destruct (negb (JS.strict_equals_number code (Exception_OK E))); [eauto | apply IH].
Qed.

(** X15. On any reply the completion callback does one of two things. It
    returns having called the commit callback exactly once, with the
    dispatcher's error alone or with an error value and the result array
    of the response. Or it throws a [TypeError] (there is no response, or an
    entry is [null] or [undefined]) and then the commit callback has not
    been called at all. It never calls the commit callback twice and never
    returns without calling it. *)
Theorem completion_calls_back_once_or_throws E callback error response w :
  (exists args,
      commit_completion E callback error response w
      = (Return tt, mkWorld (heap w) (events w ++ [Called callback args]))
      /\ (args = [error]
          \/ exists reported results,
               response = Some results /\ args = [reported; VArray results]))
  \/ (exists message,
        commit_completion E callback error response w
        = (Throw (TypeError message), w)).
Proof.
  unfold commit_completion. destruct (JS.truthy error).
  - left. exists [error]. split; [reflexivity | left; reflexivity].
  - destruct response as [results|]; [|right; eexists; reflexivity].
    unfold response_results.
    rewrite (bind_Return _ _ w results w) by reflexivity.
    destruct (scan_cases E results error w) as [[scanned Hscan] | [message Hscan]].
    + rewrite (bind_Return _ _ _ _ _ Hscan).
      left. exists [scanned; VArray results]. split; [reflexivity|].
      right. exists scanned, results. split; reflexivity.
    + rewrite (bind_Throw _ _ _ _ _ Hscan). right. exists message. reflexivity.
Qed.

(** X16. When the dispatch went through and the result array has a [null]
    or [undefined] entry before any failing one, the completion callback
    throws a [TypeError] on reading its [type] and the commit callback is
    never called, not even with the entries read so far. *)
Theorem completion_throws_on_missing_entry E callback error before missing after w :
  JS.truthy error = false ->
  Forall (fun r => nullish r = false) before ->
  Forall (fun r => signals_failure E r = false) before ->
  nullish missing = true ->
  commit_completion E callback error (Some (before ++ missing :: after)) w
  = (Throw (TypeError "Cannot read property type"), w).
Proof.
  intros Hfalsy Hpresent Hnone Hmissing.
  unfold commit_completion. rewrite Hfalsy. unfold response_results.
  rewrite (bind_Return _ _ w (before ++ missing :: after) w) by reflexivity.
  apply bind_Throw.
  induction Hpresent as [|r before Hr _ IH].
  - cbn [app]. rewrite scan_cons.
    destruct missing; try discriminate Hmissing; reflexivity.
  - rewrite <- app_comm_cons. inversion Hnone; subst.
    rewrite scan_step_success by assumption. apply IH. assumption.
Qed.

Lemma completion_throws_on_missing_entry_witness :
  commit_completion Sample.zk Sample.callback VNull
    (Some ([Sample.created "/a"] ++ VUndefined :: [Sample.failed (-101)]))
    Sample.two_world
  = (Throw (TypeError "Cannot read property type"), Sample.two_world).
Proof.
  apply (completion_throws_on_missing_entry Sample.zk Sample.callback VNull
           [Sample.created "/a"] VUndefined [Sample.failed (-101)] Sample.two_world).
  - reflexivity.
  - repeat constructor.
  - repeat constructor.
  - reflexivity.
Defined.
